(** * MCP tools for Azion HTTP events and network lists

    A shallow embedding of the tool definitions of [baseTools.ts] and of the
    registry of [tools/index.ts], with the properties stated about them.

    The tools are [async] functions that read the process environment, the
    clock and [globalThis.fetch].  They are modelled as computations in a
    small monad that threads the trace of the network exchanges performed
    and that either returns a value or throws, over an explicit [World]
    (environment variables, clock reading, fetch primitive).

    Conventions of the model, each written where it is used:
    - a JavaScript value coming from [JSON.parse] is a [JSON] tree, and
      [undefined] is [None] in [Value := option JSON];
    - a JavaScript number is an integer [Z] (ids, counts and status codes;
      fractional numbers are outside the model);
    - a JavaScript string is a [string] of bytes;
    - [zod], [JSON.stringify], template literals, [Set] and [Date] are
      modelled by the definitions of the first sections. *)

From Stdlib Require Import String Ascii List ZArith Lia Bool DecimalString.
Import ListNotations.

Open Scope list_scope.
Open Scope Z_scope.
Open Scope string_scope.

(** ** JSON values and JavaScript values *)

Set Warnings "-register-all".

Inductive JSON : Type :=
| JNull
| JBool (b : bool)
| JNum (n : Z)
| JStr (s : string)
| JArr (elems : list JSON)
| JObj (fields : list (string * JSON)).

(** [None] is [undefined]. *)
Definition Value : Type := option JSON.

(** Own property lookup of an object given by its fields in insertion
    order. *)
Fixpoint assoc (k : string) (fs : list (string * JSON)) : Value :=
  match fs with
  | [] => None
  | (k', v) :: rest => if String.eqb k k' then Some v else assoc k rest
  end.

Inductive JsError : Type :=
| TypeError (msg : string)
| NetworkError (reason : string).

(** The outcome of evaluating JavaScript code: a value, or an exception. *)
Inductive Completion (A : Type) : Type :=
| Returned (a : A)
| Thrown (e : JsError).

Arguments Returned {A} a.
Arguments Thrown {A} e.

(** [v.k] for the property names the tools read ([data], [items],
    [message], [errors] and the argument names): reading a property of
    [null] or [undefined] throws a TypeError, an object gives its own
    property, and a string, number, boolean or array has no property of
    such a name. *)
Definition get_prop (v : Value) (k : string) : Completion Value :=
  match v with
  | None => Thrown (TypeError "Cannot read properties of undefined")
  | Some JNull => Thrown (TypeError "Cannot read properties of null")
  | Some (JObj fs) => Returned (assoc k fs)
  | Some _ => Returned None
  end.

(** [v?.k] *)
Definition get_prop_opt (v : Value) (k : string) : Value :=
  match v with
  | Some (JObj fs) => assoc k fs
  | _ => None
  end.

(** [a[0]] on an array. *)
Definition first_elem (v : Value) : Value :=
  match v with
  | Some (JArr (x :: _)) => Some x
  | _ => None
  end.

(** ToBoolean. *)
Definition truthy (v : Value) : bool :=
  match v with
  | None => false
  | Some JNull => false
  | Some (JBool b) => b
  | Some (JNum n) => negb (Z.eqb n 0)
  | Some (JStr s) => negb (String.eqb s "")
  | Some (JArr _) => true
  | Some (JObj _) => true
  end.

(** [Array.isArray] *)
Definition isArray (v : Value) : bool :=
  match v with
  | Some (JArr _) => true
  | _ => false
  end.

(** [a ?? b] *)
Definition nullish_or (a : Value) (b : JSON) : JSON :=
  match a with
  | None => b
  | Some JNull => b
  | Some v => v
  end.

Definition string_of_Z (n : Z) : string :=
  NilZero.string_of_int (Z.to_int n).

Fixpoint join (sep : string) (l : list string) : string :=
  match l with
  | [] => ""
  | [x] => x
  | x :: rest => x ++ sep ++ join sep rest
  end.

Fixpoint sequence {A : Type} (l : list (Completion A)) : Completion (list A) :=
  match l with
  | [] => Returned []
  | Returned a :: rest =>
      match sequence rest with
      | Returned r => Returned (a :: r)
      | Thrown e => Thrown e
      end
  | Thrown e :: _ => Thrown e
  end.

(** ToString, as a template literal applies it.  An array is joined with
    commas, [null] elements giving the empty string.  A plain object gives
    ["[object Object]"] through [Object.prototype.toString], unless an own
    property named [toString] (never callable in parsed JSON) hides it:
    [Object.prototype.valueOf] then returns the object itself and the
    conversion throws. *)
Fixpoint json_to_string (j : JSON) : Completion string :=
  match j with
  | JNull => Returned "null"
  | JBool true => Returned "true"
  | JBool false => Returned "false"
  | JNum n => Returned (string_of_Z n)
  | JStr s => Returned s
  | JArr l =>
      match sequence (map (fun x => match x with
                                    | JNull => Returned ""
                                    | _ => json_to_string x
                                    end) l) with
      | Returned parts => Returned (join "," parts)
      | Thrown e => Thrown e
      end
  | JObj fs =>
      match assoc "toString" fs with
      | Some _ => Thrown (TypeError "Cannot convert object to primitive value")
      | None => Returned "[object Object]"
      end
  end.

Definition to_string (v : Value) : Completion string :=
  match v with
  | None => Returned "undefined"
  | Some j => json_to_string j
  end.

Fixpoint chars (s : string) : list JSON :=
  match s with
  | EmptyString => []
  | String c rest => JStr (String c EmptyString) :: chars rest
  end.

(** The values a spread [...v] yields: the elements of an array, the
    characters of a string (one per byte here, which is one per code point
    for ASCII text); anything else is not iterable. *)
Definition spread (v : Value) : Completion (list JSON) :=
  match v with
  | Some (JArr l) => Returned l
  | Some (JStr s) => Returned (chars s)
  | _ => Thrown (TypeError "value is not iterable")
  end.

(** SameValueZero on parsed JSON: primitives are compared by value; two
    arrays or objects produced by [JSON.parse] are distinct references. *)
Definition same_value_zero (a b : JSON) : bool :=
  match a, b with
  | JNull, JNull => true
  | JBool x, JBool y => Bool.eqb x y
  | JNum x, JNum y => Z.eqb x y
  | JStr x, JStr y => String.eqb x y
  | _, _ => false
  end.

(** [Array.prototype.includes] on the elements of a parsed array. *)
Definition includes (l : list JSON) (v : Value) : bool :=
  match v with
  | Some x => existsb (same_value_zero x) l
  | None => false
  end.

(** [a.includes(v)] where [a] is an array; the tools call it on a value
    that was parsed as an array. *)
Definition array_includes (a : Value) (v : Value) : Completion bool :=
  match a with
  | Some (JArr l) => Returned (includes l v)
  | _ => Thrown (TypeError "includes is not a function")
  end.

(** [new Set(iterable)]: the elements are added one by one, an element
    already in the set (SameValueZero) is skipped, and the set keeps the
    order of insertion.  The list is the set's content in that order. *)
Definition Set_add (s : list JSON) (x : JSON) : list JSON :=
  if existsb (same_value_zero x) s then s else (s ++ [x])%list.

Definition new_Set (l : list JSON) : list JSON :=
  fold_left Set_add l [].

(** ** The schema validator (zod)

    The shapes the tools declare are built from these constructors.
    [safeParse] returns the parsed output on success: an object keeps the
    declared keys only, in the order of the shape (unknown keys are
    stripped), and a declared key whose value parses to [undefined] is left
    out. *)

Inductive ZodType : Type :=
| ZString
| ZNumber
| ZBoolean
| ZEnum (allowed : list string)
| ZArray (element : ZodType)
| ZObject (shape : list (string * ZodType))
| ZNullable (inner : ZodType)
| ZOptional (inner : ZodType).

Fixpoint parse_elems (P : Value -> option Value) (l : list JSON)
  : option (list JSON) :=
  match l with
  | [] => Some []
  | x :: rest =>
      match P (Some x), parse_elems P rest with
      | Some (Some y), Some ys => Some (y :: ys)
      | _, _ => None
      end
  end.

Fixpoint parse (t : ZodType) (v : Value) {struct t} : option Value :=
  match t with
  | ZString => match v with Some (JStr _) => Some v | _ => None end
  | ZNumber => match v with Some (JNum _) => Some v | _ => None end
  | ZBoolean => match v with Some (JBool _) => Some v | _ => None end
  | ZEnum allowed =>
      match v with
      | Some (JStr s) => if existsb (String.eqb s) allowed then Some v else None
      | _ => None
      end
  | ZArray element =>
      match v with
      | Some (JArr l) =>
          match parse_elems (parse element) l with
          | Some out => Some (Some (JArr out))
          | None => None
          end
      | _ => None
      end
  | ZObject shape =>
      match v with
      | Some (JObj fs) =>
          match
            (fix parse_shape (sh : list (string * ZodType))
               : option (list (string * JSON)) :=
               match sh with
               | [] => Some []
               | (k, t') :: rest =>
                   match parse t' (assoc k fs), parse_shape rest with
                   | Some (Some y), Some out => Some ((k, y) :: out)
                   | Some None, Some out => Some out
                   | _, _ => None
                   end
               end) shape
          with
          | Some out => Some (Some (JObj out))
          | None => None
          end
      | _ => None
      end
  | ZNullable inner =>
      match v with
      | Some JNull => Some v
      | _ => parse inner v
      end
  | ZOptional inner =>
      match v with
      | None => Some None
      | _ => parse inner v
      end
  end.

(** The fields of an object parsed against a shape. *)
Fixpoint parse_shape (fs : list (string * JSON)) (sh : list (string * ZodType))
  : option (list (string * JSON)) :=
  match sh with
  | [] => Some []
  | (k, t') :: rest =>
      match parse t' (assoc k fs), parse_shape fs rest with
      | Some (Some y), Some out => Some ((k, y) :: out)
      | Some None, Some out => Some out
      | _, _ => None
      end
  end.

(** The result of [schema.safeParse(json)]: [success] with [data], or a
    failure carrying [error.message]. *)
Inductive SafeParseResult : Type :=
| ParseSuccess (data : JSON)
| ParseFailure (message : string).

(** ** JSON.stringify(value, null, 2) *)

Definition dquote : string := String "034"%char EmptyString.
Definition backslash : string := String "092"%char EmptyString.
Definition newline : string := String "010"%char EmptyString.

Definition hex_digit (n : N) : string :=
  String (ascii_of_N (if (n <? 10)%N then 48 + n else 87 + n)%N) EmptyString.

(** QuoteJSONString on one character. *)
Definition escape_char (c : ascii) : string :=
  let n := N_of_ascii c in
  if (n =? 34)%N then backslash ++ dquote
  else if (n =? 92)%N then backslash ++ backslash
  else if (n =? 8)%N then backslash ++ "b"
  else if (n =? 12)%N then backslash ++ "f"
  else if (n =? 10)%N then backslash ++ "n"
  else if (n =? 13)%N then backslash ++ "r"
  else if (n =? 9)%N then backslash ++ "t"
  else if (n <? 32)%N then backslash ++ "u00" ++ hex_digit (n / 16) ++ hex_digit (n mod 16)
  else String c EmptyString.

Fixpoint escape (s : string) : string :=
  match s with
  | EmptyString => ""
  | String c rest => escape_char c ++ escape rest
  end.

Definition quote (s : string) : string := dquote ++ escape s ++ dquote.

Fixpoint stringify_at (indent : string) (j : JSON) : string :=
  let inner := indent ++ "  " in
  match j with
  | JNull => "null"
  | JBool true => "true"
  | JBool false => "false"
  | JNum n => string_of_Z n
  | JStr s => quote s
  | JArr [] => "[]"
  | JArr l =>
      "[" ++ newline ++ inner
      ++ join ("," ++ newline ++ inner) (map (stringify_at inner) l)
      ++ newline ++ indent ++ "]"
  | JObj [] => "{}"
  | JObj fs =>
      "{" ++ newline ++ inner
      ++ join ("," ++ newline ++ inner)
           (map (fun kv => quote (fst kv) ++ ": " ++ stringify_at inner (snd kv)) fs)
      ++ newline ++ indent ++ "}"
  end.

Definition JSON_stringify_pretty (j : JSON) : string := stringify_at "" j.

(** ** Date.prototype.toISOString

    A [Date] is its time value, the milliseconds since the epoch. *)

Fixpoint pad_left (fuel width : nat) (s : string) : string :=
  match fuel with
  | O => s
  | S f => if Nat.ltb (String.length s) width then pad_left f width ("0" ++ s) else s
  end.

(** [n] in decimal, with zeros in front up to [width] characters. *)
Definition digits (width : nat) (n : Z) : string :=
  pad_left width width (string_of_Z n).

(** The civil date of a day number counted from 1970-01-01, in the
    proleptic Gregorian calendar. *)
Definition civil_from_days (days : Z) : Z * Z * Z :=
  let z := days + 719468 in
  let era := z / 146097 in
  let doe := z - era * 146097 in
  let yoe := (doe - doe / 1460 + doe / 36524 - doe / 146096) / 365 in
  let doy := doe - (365 * yoe + yoe / 4 - yoe / 100) in
  let mp := (5 * doy + 2) / 153 in
  let d := doy - (153 * mp + 2) / 5 + 1 in
  let m := if (mp <? 10)%Z then mp + 3 else mp - 9 in
  let y := yoe + era * 400 + (if (m <=? 2)%Z then 1 else 0) in
  (y, m, d).

Definition toISOString (t : Z) : string :=
  let '(y, m, d) := civil_from_days (t / 86400000) in
  let ms := t mod 86400000 in
  let year :=
    if ((0 <=? y) && (y <=? 9999))%Z then digits 4 y
    else if (y <? 0)%Z then "-" ++ digits 6 (- y)
    else "+" ++ digits 6 y in
  year ++ "-" ++ digits 2 m ++ "-" ++ digits 2 d ++ "T"
  ++ digits 2 (ms / 3600000) ++ ":" ++ digits 2 (ms / 60000 mod 60) ++ ":"
  ++ digits 2 (ms / 1000 mod 60) ++ "." ++ digits 3 (ms mod 1000) ++ "Z".

(** ** The world a tool runs in, and the monad of its execution *)

Record Request : Type := {
  url : string;
  method : string;
  headers : list (string * string);
  (** the value handed to [JSON.stringify] for the request body, if any *)
  body : option JSON
}.

Record Response : Type := {
  status : Z;
  statusText : string;
  (** what [res.json()] resolves to; [None] when it rejects *)
  json_body : option JSON
}.

(** [res.ok]: the status is in the range 200-299. *)
Definition ok (res : Response) : bool :=
  ((200 <=? status res) && (status res <=? 299))%Z.

(** The promise [fetch] returns resolves with a response or rejects. *)
Inductive FetchOutcome : Type :=
| Resolved (res : Response)
| Rejected (reason : string).

Definition Exchange : Type := (Request * FetchOutcome)%type.

(** The upstream answers a request knowing the exchanges made so far. *)
Definition Fetch : Type := list Exchange -> Request -> FetchOutcome.

Record World : Type := {
  (** [process.env.AZION_API_TOKEN], [process.env.AZION_TOKEN] *)
  AZION_API_TOKEN : option string;
  AZION_TOKEN : option string;
  (** [globalThis.fetch], when it is a function *)
  fetch : option Fetch;
  (** the time value of [new Date()] *)
  now : Z
}.

(** A computation reads the trace of the exchanges made so far, extends
    it, and returns or throws. *)
Definition M (A : Type) : Type := list Exchange -> Completion A * list Exchange.

Definition ret {A : Type} (a : A) : M A := fun tr => (Returned a, tr).

Definition bind {A B : Type} (c : M A) (k : A -> M B) : M B :=
  fun tr =>
    match c tr with
    | (Returned a, tr') => k a tr'
    | (Thrown e, tr') => (Thrown e, tr')
    end.

Definition lift {A : Type} (c : Completion A) : M A := fun tr => (c, tr).

Notation "x <- c ;; k" := (bind c (fun x => k))
  (at level 61, c at next level, right associativity).

(** [await fetchFn(url, init)] *)
Definition await_fetch (fetchFn : Fetch) (req : Request) : M Response :=
  fun tr =>
    match fetchFn tr req with
    | Resolved res => (Returned res, (tr ++ [(req, Resolved res)])%list)
    | Rejected reason =>
        (Thrown (NetworkError reason), (tr ++ [(req, Rejected reason)])%list)
    end.

(** [await res.json().catch(() => fallback)] *)
Definition json_or (res : Response) (fallback : JSON) : JSON :=
  match json_body res with
  | Some j => j
  | None => fallback
  end.

(** Running a computation from the empty trace. *)
Definition run {A : Type} (c : M A) : Completion A * list Exchange := c [].

(** ** Tool definitions (types.ts) *)

Record ContentItem : Type := {
  type : string;
  text : string
}.

Record ToolResponse : Type := {
  content : list ContentItem
}.

(** The argument object of a call, [Record<string, any>], by its fields. *)
Definition Args : Type := list (string * JSON).

Record McpTool : Type := {
  name : string;
  description : string;
  inputSchema : list (string * ZodType);
  execute : World -> Args -> M ToolResponse
}.

(** [{ content: [{ type: 'text', text }] }] *)
Definition text_reply (t : string) : ToolResponse :=
  {| content := [ {| type := "text"; text := t |} ] |}.

(** [process.env.AZION_API_TOKEN || process.env.AZION_TOKEN] *)
Definition env_token (w : World) : option string :=
  match AZION_API_TOKEN w with
  | Some (String c s) => Some (String c s)
  | _ => AZION_TOKEN w
  end.

(** An object literal as [JSON.stringify] serialises it: a property whose
    value is [undefined] is left out. *)
Fixpoint object_literal (fs : list (string * Value)) : JSON :=
  match fs with
  | [] => JObj []
  | (k, Some v) :: rest =>
      match object_literal rest with
      | JObj out => JObj ((k, v) :: out)
      | other => other
      end
  | (_, None) :: rest => object_literal rest
  end.

(** [JSON.stringify(v, null, 2)] inside a template literal. *)
Definition pretty (v : Value) : string :=
  match v with
  | Some j => JSON_stringify_pretty j
  | None => "undefined"
  end.

Definition missing_token_text : string :=
  "Missing AZION_API_TOKEN (or AZION_TOKEN) in environment. Please create a .env with AZION_API_TOKEN=your_token and ensure your runner loads it.".

Definition fetch_unavailable_text : string :=
  "Fetch API is not available in this runtime. Please run on Node 18+ or provide a fetch polyfill.".

(** [`HTTP ${res.status} ${res.statusText}`] *)
Definition http_status_text (res : Response) : string :=
  "HTTP " ++ string_of_Z (status res) ++ " " ++ statusText res.

(** The GraphQL document of [query_http_events]. *)
Definition query : string := "
query httpEvents($tsRange_begin: DateTime!, $tsRange_end: DateTime!) {
	httpEvents (
		limit: 1000
		orderBy: [ts_DESC]
		filter: {
			tsRange: { begin: $tsRange_begin, end: $tsRange_end }
		}
	) {
    ts
		configurationId
		host
		requestId
		httpUserAgent
		requestMethod
		status
		upstreamBytesSent
    upstreamCacheStatus
		sslProtocol
		wafLearning
		requestTime
		serverProtocol
    upstreamAddr
		httpReferer
		remoteAddress
		wafMatch
    wafScore
    wafBlock
		serverPort
		sslCipher
		serverAddr
		scheme
    geolocAsn
    geolocRegionName
    geolocCountryName
	}
}
".

(** ** The response shapes the tools declare (baseTools.ts) *)

Module ListHttpEvents.

Definition HttpEventSchema : ZodType :=
  ZObject
    [ ("ts", ZString);
      ("configurationId", ZOptional (ZNullable ZString));
      ("host", ZOptional (ZNullable ZString));
      ("requestId", ZOptional (ZNullable ZString));
      ("httpUserAgent", ZOptional (ZNullable ZString));
      ("requestMethod", ZOptional (ZNullable ZString));
      ("status", ZOptional (ZNullable ZNumber));
      ("upstreamBytesSent", ZOptional (ZNullable ZNumber));
      ("upstreamCacheStatus", ZOptional (ZNullable ZString));
      ("sslProtocol", ZOptional (ZNullable ZString));
      ("wafLearning", ZOptional (ZNullable ZString));
      ("requestTime", ZOptional (ZNullable ZString));
      ("serverProtocol", ZOptional (ZNullable ZString));
      ("upstreamAddr", ZOptional (ZNullable ZString));
      ("httpReferer", ZOptional (ZNullable ZString));
      ("remoteAddress", ZOptional (ZNullable ZString));
      ("wafMatch", ZOptional (ZNullable ZString));
      ("wafScore", ZOptional (ZNullable ZString));
      ("wafBlock", ZOptional (ZNullable ZString));
      ("serverPort", ZOptional (ZNullable ZString));
      ("sslCipher", ZOptional (ZNullable ZString));
      ("serverAddr", ZOptional (ZNullable ZString));
      ("scheme", ZOptional (ZNullable ZString));
      ("geolocAsn", ZOptional (ZNullable ZString));
      ("geolocRegionName", ZOptional (ZNullable ZString));
      ("geolocCountryName", ZOptional (ZNullable ZString)) ].

Definition ResponseSchema : ZodType :=
  ZObject [ ("data", ZObject [ ("httpEvents", ZArray HttpEventSchema) ]) ].

End ListHttpEvents.

Module ListNetworkList.

Definition NetworkListSchema : ZodType :=
  ZObject
    [ ("id", ZNumber);
      ("name", ZString);
      ("type", ZString);
      ("last_editor", ZString);
      ("last_modified", ZString);
      ("active", ZBoolean) ].

Definition ResponseSchema : ZodType :=
  ZObject [ ("count", ZNumber); ("results", ZArray NetworkListSchema) ].

End ListNetworkList.

(** The entity shape that get, update and create each declare. *)
Definition NetworkListEntity : ZodType :=
ZObject
  [ ("id", ZNumber);
    ("name", ZString);
    ("type", ZString);
    ("items", ZArray ZString);
    ("last_editor", ZString);
    ("last_modified", ZString);
    ("active", ZBoolean) ].

Module GetNetworkList.

Definition NetworkListSchema : ZodType :=
  ZObject [ ("data", NetworkListEntity) ].

End GetNetworkList.

Module UpdateNetworkList.

Definition ResponseSchema : ZodType :=
  ZObject [ ("state", ZString); ("data", NetworkListEntity) ].

End UpdateNetworkList.

Module CreateNetworkList.

Definition ResponseSchema : ZodType :=
  ZObject [ ("state", ZString); ("data", NetworkListEntity) ].

End CreateNetworkList.

(** ** The five tools (baseTools.ts) and the registry (tools/index.ts) *)

Section Tools.

(** [parsed.error.message], the diagnostic zod gives for a value that
    does not match a shape.  Its text is zod's business. *)
Variable error_message : ZodType -> JSON -> string.

(** [schema.safeParse(json)] *)
Definition safeParse (schema : ZodType) (json : JSON) : SafeParseResult :=
  match parse schema (Some json) with
  | Some (Some data) => ParseSuccess data
  | _ => ParseFailure (error_message schema json)
  end.

Definition unexpected_format (diagnostic : string) : ToolResponse :=
  text_reply ("Unexpected response format from Azion API: " ++ diagnostic).

(** [json.message || `HTTP ${res.status} ${res.statusText}`], then the
    reply of a request that was not ok. *)
Definition request_failed (res : Response) (json : JSON) : M ToolResponse :=
  m <- lift (get_prop (Some json) "message") ;;
  message <- (if truthy m then lift (to_string m)
              else ret (http_status_text res)) ;;
  ret (text_reply ("Azion API request failed: " ++ message)).

Definition createListHttpEventsTool (name description : string) : McpTool :=
  {| name := name;
     description := description;
     inputSchema := [ ("begin", ZOptional ZString); ("end", ZOptional ZString) ];
     execute := fun w args =>
       let defaultEnd := toISOString (now w) in
       let defaultBegin := toISOString (now w - 5 * 60 * 1000) in
       let begin := nullish_or (assoc "begin" args) (JStr defaultBegin) in
       let end_ := nullish_or (assoc "end" args) (JStr defaultEnd) in
       match env_token w with
       | None | Some EmptyString => ret (text_reply missing_token_text)
       | Some token =>
       let BASE_URL := "https://api-origin.azionapi.net/events/graphql" in
       match fetch w with
       | None => ret (text_reply fetch_unavailable_text)
       | Some fetchFn =>
       let variables :=
         JObj [ ("tsRange_begin", begin); ("tsRange_end", end_) ] in
       res <- await_fetch fetchFn
                {| url := BASE_URL;
                   method := "POST";
                   headers := [ ("content-type", "application/json");
                                ("authorization", "Token " ++ token) ];
                   body := Some (JObj [ ("query", JStr query);
                                        ("variables", variables) ]) |} ;;
       let json :=
         json_or res
           (JObj [ ("errors",
                    JArr [ JObj [ ("message",
                                   JStr "Invalid JSON response from Azion API") ] ]) ]) in
       if negb (ok res) then
         message <-
           (if truthy (Some json) then
              errors <- lift (get_prop (Some json) "errors") ;;
              if truthy errors && isArray errors
                 && truthy (get_prop_opt (first_elem errors) "message")
              then
                m <- lift (get_prop (first_elem errors) "message") ;;
                lift (to_string m)
              else ret (http_status_text res)
            else ret (http_status_text res)) ;;
         ret (text_reply ("Azion GraphQL request failed: " ++ message))
       else
         match safeParse ListHttpEvents.ResponseSchema json with
         | ParseFailure diagnostic => ret (unexpected_format diagnostic)
         | ParseSuccess parsed_data =>
             data <- lift (get_prop (Some parsed_data) "data") ;;
             events <- lift (get_prop data "httpEvents") ;;
             b <- lift (to_string (Some begin)) ;;
             e <- lift (to_string (Some end_)) ;;
             let header := "HTTP Events from " ++ b ++ " to " ++ e in
             let prettyJson := pretty events in
             ret (text_reply (header ++ newline ++ newline ++ "Raw data:"
                              ++ newline ++ prettyJson))
         end
       end
       end
  |}.

Definition createListNetworkListTool (name description : string) : McpTool :=
  {| name := name;
     description := description;
     inputSchema := [];
     execute := fun w args =>
       match env_token w with
       | None | Some EmptyString => ret (text_reply missing_token_text)
       | Some token =>
       let BASE_URL := "https://edge-api.azion.net/workspace/api/network_lists" in
       let url_ := BASE_URL ++ "?type=ip_cidr" in
       match fetch w with
       | None => ret (text_reply fetch_unavailable_text)
       | Some fetchFn =>
       res <- await_fetch fetchFn
                {| url := url_;
                   method := "GET";
                   headers := [ ("Accept", "application/json");
                                ("Authorization", "Token " ++ token) ];
                   body := None |} ;;
       let json :=
         json_or res
           (JObj [ ("message",
                    JStr ("Invalid JSON response from Azion API {status: "
                          ++ string_of_Z (status res) ++ "}")) ]) in
       if negb (ok res) then request_failed res json
       else
         match safeParse ListNetworkList.ResponseSchema json with
         | ParseFailure diagnostic => ret (unexpected_format diagnostic)
         | ParseSuccess parsed_data =>
             results <- lift (get_prop (Some parsed_data) "results") ;;
             let prettyJson := pretty results in
             count <- lift (get_prop (Some parsed_data) "count") ;;
             count_text <- lift (to_string count) ;;
             ret (text_reply ("Found " ++ count_text ++ " network lists."
                              ++ newline ++ newline ++ prettyJson))
         end
       end
       end
  |}.

Definition createGetNetworkListTool (name description : string) : McpTool :=
  {| name := name;
     description := description;
     inputSchema := [ ("networkListId", ZNumber); ("checkIp", ZOptional ZString) ];
     execute := fun w args =>
       match env_token w with
       | None | Some EmptyString => ret (text_reply missing_token_text)
       | Some token =>
       id_text <- lift (to_string (assoc "networkListId" args)) ;;
       let BASE_URL :=
         "https://edge-api.azion.net/workspace/api/network_lists/" ++ id_text in
       match fetch w with
       | None => ret (text_reply fetch_unavailable_text)
       | Some fetchFn =>
       res <- await_fetch fetchFn
                {| url := BASE_URL;
                   method := "GET";
                   headers := [ ("Accept", "application/json");
                                ("Authorization", "Token " ++ token) ];
                   body := None |} ;;
       let json :=
         json_or res
           (JObj [ ("message", JStr "Invalid JSON response from Azion API") ]) in
       if negb (ok res) then request_failed res json
       else
         match safeParse GetNetworkList.NetworkListSchema json with
         | ParseFailure diagnostic => ret (unexpected_format diagnostic)
         | ParseSuccess parsed_data =>
             networkList <- lift (get_prop (Some parsed_data) "data") ;;
             ipCheckResult <-
               (if truthy (assoc "checkIp" args) then
                  items <- lift (get_prop networkList "items") ;;
                  ipExists <- lift (array_includes items (assoc "checkIp" args)) ;;
                  ip_text <- lift (to_string (assoc "checkIp" args)) ;;
                  ret (newline ++ newline ++ "IP Check: " ++ ip_text ++ " "
                       ++ (if ipExists then "is already present" else "is NOT present")
                       ++ " in the network list.")
                else ret "") ;;
             let prettyJson := pretty networkList in
             id <- lift (get_prop networkList "id") ;;
             shown_id <- lift (to_string id) ;;
             ret (text_reply ("Network List Details (ID: " ++ shown_id ++ "):"
                              ++ newline ++ newline ++ prettyJson ++ ipCheckResult))
         end
       end
       end
  |}.

(** The [finalItems] of an update: [args.newItems], or, when
    [replaceAll] is not set, the current items fetched first and merged
    with them. *)
Definition final_items (fetchFn : Fetch) (BASE_URL token : string) (args : Args)
  : M Value :=
  let finalItems := assoc "newItems" args in
  if negb (truthy (assoc "replaceAll" args)) then
    getRes <- await_fetch fetchFn
                {| url := BASE_URL;
                   method := "GET";
                   headers := [ ("Accept", "application/json");
                                ("Authorization", "Token " ++ token) ];
                   body := None |} ;;
    if ok getRes then
      let currentData := json_or getRes (JObj []) in
      data <- lift (get_prop (Some currentData) "data") ;;
      if truthy data then
        existingItems <- lift (get_prop data "items") ;;
        if truthy existingItems then
          existing <- lift (spread existingItems) ;;
          added <- lift (spread (assoc "newItems" args)) ;;
          let combinedItems := (existing ++ added)%list in
          ret (Some (JArr (new_Set combinedItems)))
        else ret finalItems
      else ret finalItems
    else ret finalItems
  else ret finalItems.

Definition createUpdateNetworkListTool (name description : string) : McpTool :=
  {| name := name;
     description := description;
     inputSchema := [ ("networkListId", ZNumber);
                      ("newItems", ZArray ZString);
                      ("replaceAll", ZOptional ZBoolean) ];
     execute := fun w args =>
       match env_token w with
       | None | Some EmptyString => ret (text_reply missing_token_text)
       | Some token =>
       id_text <- lift (to_string (assoc "networkListId" args)) ;;
       let BASE_URL :=
         "https://edge-api.azion.net/workspace/api/network_lists/" ++ id_text in
       match fetch w with
       | None => ret (text_reply fetch_unavailable_text)
       | Some fetchFn =>
       finalItems <- final_items fetchFn BASE_URL token args ;;
       let body_ := object_literal [ ("items", finalItems) ] in
       res <- await_fetch fetchFn
                {| url := BASE_URL;
                   method := "PATCH";
                   headers := [ ("Accept", "application/json");
                                ("Content-Type", "application/json");
                                ("Authorization", "Token " ++ token) ];
                   body := Some body_ |} ;;
       let json :=
         json_or res
           (JObj [ ("message", JStr "Invalid JSON response from Azion API") ]) in
       if negb (ok res) then request_failed res json
       else
         match safeParse UpdateNetworkList.ResponseSchema json with
         | ParseFailure diagnostic => ret (unexpected_format diagnostic)
         | ParseSuccess parsed_data =>
             data <- lift (get_prop (Some parsed_data) "data") ;;
             let prettyJson := pretty data in
             state <- lift (get_prop (Some parsed_data) "state") ;;
             state_text <- lift (to_string state) ;;
             ret (text_reply ("Successfully updated network list (State: "
                              ++ state_text ++ ")." ++ newline ++ newline
                              ++ prettyJson))
         end
       end
       end
  |}.

Definition createCreateNetworkListTool (name description : string) : McpTool :=
  {| name := name;
     description := description;
     inputSchema := [ ("name", ZString);
                      ("type", ZEnum [ "ip_cidr"; "asn"; "countries" ]);
                      ("items", ZArray ZString);
                      ("active", ZOptional ZBoolean) ];
     execute := fun w args =>
       match env_token w with
       | None | Some EmptyString => ret (text_reply missing_token_text)
       | Some token =>
       let BASE_URL := "https://edge-api.azion.net/workspace/api/network_lists" in
       match fetch w with
       | None => ret (text_reply fetch_unavailable_text)
       | Some fetchFn =>
       let body_ :=
         object_literal
           [ ("name", assoc "name" args);
             ("type", assoc "type" args);
             ("items", assoc "items" args);
             ("active", Some (nullish_or (assoc "active" args) (JBool true))) ] in
       res <- await_fetch fetchFn
                {| url := BASE_URL;
                   method := "POST";
                   headers := [ ("Accept", "application/json");
                                ("Content-Type", "application/json");
                                ("Authorization", "Token " ++ token) ];
                   body := Some body_ |} ;;
       let json :=
         json_or res
           (JObj [ ("message", JStr "Invalid JSON response from Azion API") ]) in
       if negb (ok res) then request_failed res json
       else
         match safeParse CreateNetworkList.ResponseSchema json with
         | ParseFailure diagnostic => ret (unexpected_format diagnostic)
         | ParseSuccess parsed_data =>
             data <- lift (get_prop (Some parsed_data) "data") ;;
             let prettyJson := pretty data in
             ret (text_reply ("Successfully created network list." ++ newline
                              ++ newline ++ prettyJson))
         end
       end
       end
  |}.

(** The registry.  The descriptions are usage notes for the calling
    agent; only their first sentence is kept here. *)
Definition tools : list McpTool :=
  [ createListHttpEventsTool "query_http_events"
      "Queries Azion Real-Time Events GraphQL to list HTTP events in a given time range.";
    createListNetworkListTool "list_network_lists"
      "Lists Azion Network Lists of type ip_cidr. Always filters by ip_cidr type.";
    createCreateNetworkListTool "create_network_list"
      "Creates an Azion Network List.";
    createGetNetworkListTool "get_network_list"
      "Retrieves a specific Azion Network List by ID and optionally checks if an IP exists in it.";
    createUpdateNetworkListTool "update_network_list"
      "Updates an Azion Network List by adding new IP addresses or replacing all items." ].

End Tools.

(** ** Vocabulary of the statements *)

(** *** Strings and items *)

(** The strings of a list as JSON values. *)
Definition strings (l : list string) : list JSON := map JStr l.

(** [data.items] of the body of a GET that succeeded, when there is
    one. *)
Definition fetched_items (getRes : Response) : Value :=
  if ok getRes then
    match json_body getRes with
    | Some currentData =>
        get_prop_opt (get_prop_opt (Some currentData) "data") "items"
    | None => None
    end
  else None.

(** The deduplicated union in the words of the specification: every
    string is kept where it first occurs, its later occurrences are
    dropped. *)
Fixpoint keep_first (l : list string) : list string :=
  match l with
  | [] => []
  | x :: rest => x :: remove string_dec x (keep_first rest)
  end.

(** [x] does not occur in [acc]. *)
Definition fresh_in (acc : list string) (x : string) : bool :=
  negb (existsb (String.eqb x) acc).

(** The parsed output of the entity shape. *)
Definition entity_record (id : Z) (name_ type_ : string) (items : list string)
           (editor modified : string) (active : bool) : JSON :=
  JObj [ ("id", JNum id);
         ("name", JStr name_);
         ("type", JStr type_);
         ("items", JArr (strings items));
         ("last_editor", JStr editor);
         ("last_modified", JStr modified);
         ("active", JBool active) ].

(** The line the get tool appends when it checks an address. *)
Definition ip_check_line (ip verdict : string) : string :=
  newline ++ newline ++ "IP Check: " ++ ip ++ " " ++ verdict
  ++ " in the network list.".

(** [needle] occurs in [hay]. *)
Fixpoint contains (needle hay : string) : bool :=
  if prefix needle hay then true
  else match hay with
       | EmptyString => false
       | String _ rest => contains needle rest
       end.

(** *** Requests and traces *)

(** The requests of a trace, in the order they were sent. *)
Definition requests (tr : list Exchange) : list Request := map fst tr.

(** The url of one network list. *)
Definition entity_url (id : Z) : string :=
  "https://edge-api.azion.net/workspace/api/network_lists/" ++ string_of_Z id.

(** The GET request for one network list. *)
Definition get_request (token : string) (id : Z) : Request :=
  {| url := entity_url id;
     method := "GET";
     headers := [ ("Accept", "application/json");
                  ("Authorization", "Token " ++ token) ];
     body := None |}.

(** The PATCH request of an update. *)
Definition patch_request (token : string) (id : Z) (items : JSON) : Request :=
  {| url := entity_url id;
     method := "PATCH";
     headers := [ ("Accept", "application/json");
                  ("Content-Type", "application/json");
                  ("Authorization", "Token " ++ token) ];
     body := Some (JObj [ ("items", items) ]) |}.

(** The request of [query_http_events] for a time range. *)
Definition events_request (token begin_ end_ : string) : Request :=
  {| url := "https://api-origin.azionapi.net/events/graphql";
     method := "POST";
     headers := [ ("content-type", "application/json");
                  ("authorization", "Token " ++ token) ];
     body := Some (JObj [ ("query", JStr query);
                          ("variables",
                           JObj [ ("tsRange_begin", JStr begin_);
                                  ("tsRange_end", JStr end_) ]) ]) |}.

(** *** Arguments and environment *)


(** An optional string argument: left out, or a string. *)
Definition optional_string (v : Value) : Prop :=
  v = None \/ exists s, v = Some (JStr s).

(** An environment variable that is unset or empty yields no token. *)
Definition yields_no_token (v : option string) : Prop :=
  v = None \/ v = Some "".

(** A time argument of [query_http_events] as the reply shows it: the
    string passed, or the ISO form of the default instant. *)
Definition time_arg (given : Value) (default_instant : Z) : string :=
  match given with
  | Some (JStr s) => s
  | _ => toISOString default_instant
  end.

(** The default instants, from one reading [now w] of the clock. *)
Definition default_end (w : World) : Z := now w.
Definition default_begin (w : World) : Z := now w - 5 * 60 * 1000.

(** *** The registered tools, by name *)

Definition events_tool (error_message : ZodType -> JSON -> string) : McpTool :=
  createListHttpEventsTool error_message "query_http_events"
    "Queries Azion Real-Time Events GraphQL to list HTTP events in a given time range.".

Definition list_tool (error_message : ZodType -> JSON -> string) : McpTool :=
  createListNetworkListTool error_message "list_network_lists"
    "Lists Azion Network Lists of type ip_cidr. Always filters by ip_cidr type.".

Definition create_tool (error_message : ZodType -> JSON -> string) : McpTool :=
  createCreateNetworkListTool error_message "create_network_list"
    "Creates an Azion Network List.".

Definition get_tool (error_message : ZodType -> JSON -> string) : McpTool :=
  createGetNetworkListTool error_message "get_network_list"
    "Retrieves a specific Azion Network List by ID and optionally checks if an IP exists in it.".

Definition update_tool (error_message : ZodType -> JSON -> string) : McpTool :=
  createUpdateNetworkListTool error_message "update_network_list"
    "Updates an Azion Network List by adding new IP addresses or replacing all items.".

(** Each registered tool with the envelope shape it declares, the method
    of the request whose response it validates, and the value it takes for
    a body that is not JSON. *)
Definition declared (error_message : ZodType -> JSON -> string)
  : list (McpTool * ZodType * string * (Response -> JSON)) :=
  [ (events_tool error_message, ListHttpEvents.ResponseSchema, "POST",
     fun _ => JObj [ ("errors",
                      JArr [ JObj [ ("message",
                                     JStr "Invalid JSON response from Azion API") ] ]) ]);
    (list_tool error_message, ListNetworkList.ResponseSchema, "GET",
     fun res => JObj [ ("message",
                        JStr ("Invalid JSON response from Azion API {status: "
                              ++ string_of_Z (status res) ++ "}")) ]);
    (create_tool error_message, CreateNetworkList.ResponseSchema, "POST",
     fun _ => JObj [ ("message", JStr "Invalid JSON response from Azion API") ]);
    (get_tool error_message, GetNetworkList.NetworkListSchema, "GET",
     fun _ => JObj [ ("message", JStr "Invalid JSON response from Azion API") ]);
    (update_tool error_message, UpdateNetworkList.ResponseSchema, "PATCH",
     fun _ => JObj [ ("message", JStr "Invalid JSON response from Azion API") ]) ].

(** *** Computations and replies *)

(** A computation that performs no network exchange. *)
Definition silent {A : Type} (c : M A) : Prop :=
  forall tr, snd (c tr) = tr.

(** A computation whose result does not depend on the trace and that
    performs no exchange. *)
Definition pure {A : Type} (c : M A) : Prop :=
  exists v, forall tr, c tr = (v, tr).



(** *** Tame bodies *)







(** ** Sample worlds, on which the tools are run *)

(** A stand-in for zod's diagnostics. *)
Definition sample_diagnostic : ZodType -> JSON -> string :=
  fun _ _ => "[zod issues]".

(** A network list as the upstream sends it. *)
Definition sample_entity (items : list string) : JSON :=
  JObj [ ("id", JNum 48334);
         ("name", JStr "blocklist");
         ("type", JStr "ip_cidr");
         ("items", JArr (strings items));
         ("last_editor", JStr "ops@example.com");
         ("last_modified", JStr "2024-05-01T10:00:00Z");
         ("active", JBool true) ].

(** A fetch that resolves with the given status and body. *)
Definition respond (code : Z) (reason : string) (j : option JSON) : FetchOutcome :=
  Resolved {| status := code; statusText := reason; json_body := j |}.

(** An upstream that holds one network list: a GET answers [{data}], the
    other methods answer [{state, data}]. *)
Definition upstream_holding (items : list string) : Fetch :=
  fun _ req =>
    if String.eqb (method req) "GET"
    then respond 200 "OK" (Some (JObj [ ("data", sample_entity items) ]))
    else respond 200 "OK" (Some (JObj [ ("state", JStr "executed");
                                        ("data", sample_entity items) ])).

(** An upstream that answers every request with an error status. *)
Definition upstream_failing : Fetch :=
  fun _ _ => respond 500 "Internal Server Error"
               (Some (JObj [ ("detail", JStr "unavailable") ])).


(** A world with a credential, and the given fetch primitive. *)
Definition world_with (f : option Fetch) : World :=
  {| AZION_API_TOKEN := Some "secret";
     AZION_TOKEN := None;
     fetch := f;
     now := 1700000000000 |}.

(** A world where the first variable is unset and the second is empty. *)
Definition world_without_token : World :=
  {| AZION_API_TOKEN := None;
     AZION_TOKEN := Some "";
     fetch := Some (upstream_holding []);
     now := 1700000000000 |}.

(** An upstream that answers the event query with one event. *)
Definition upstream_events : Fetch :=
  fun _ _ =>
    respond 200 "OK"
      (Some (JObj [ ("data",
                     JObj [ ("httpEvents",
                             JArr [ JObj [ ("ts", JStr "2023-11-14T22:10:00Z");
                                           ("host", JStr "example.com");
                                           ("status", JNum 200) ] ]) ]) ])).


(** A body that matches none of the declared shapes: no id, no name, and
    items that are not strings. *)
Definition malformed_payload : JSON :=
  JObj [ ("data", JObj [ ("items", JArr [ JNum 7 ]) ]) ].

(** An upstream that answers a GET with [malformed_payload]. *)
Definition upstream_malformed : Fetch :=
  fun _ req =>
    if String.eqb (method req) "GET"
    then respond 200 "OK" (Some malformed_payload)
    else respond 200 "OK" (Some (JObj [ ("state", JStr "executed");
                                        ("data", sample_entity []) ])).

(** An upstream that sends the same entity with fields the shape does
    not declare. *)
Definition upstream_with_extras : Fetch :=
  fun _ _ =>
    respond 200 "OK"
      (Some (JObj [ ("data",
                     match sample_entity ["10.0.0.0/8"] with
                     | JObj fs => JObj (("note", JStr "internal") :: fs)
                     | other => other
                     end);
                    ("debug", JBool true) ])).

(** * Properties *)

(** ** Basic facts *)

Lemma env_token_none (w : World) :
  yields_no_token (AZION_API_TOKEN w) ->
  yields_no_token (AZION_TOKEN w) ->
  env_token w = None \/ env_token w = Some "".
Proof.
  unfold yields_no_token, env_token.
  intros [-> | ->] [-> | ->]; auto.
Qed.

Lemma silent_ret {A : Type} (a : A) : silent (ret a).
Proof. intro tr; reflexivity. Qed.

Lemma silent_lift {A : Type} (c : Completion A) : silent (lift c).
Proof. intro tr; reflexivity. Qed.

Lemma silent_bind {A B : Type} (c : M A) (k : A -> M B) :
  silent c -> (forall a, silent (k a)) -> silent (bind c k).
Proof.
  intros Hc Hk tr. unfold bind.
  specialize (Hc tr).
  destruct (c tr) as [[a | e] tr']; simpl in Hc; subst tr'.
  - apply Hk.
  - reflexivity.
Qed.

Ltac silence :=
  repeat first
    [ apply silent_ret
    | apply silent_lift
    | apply silent_bind; [| intro]
    | match goal with
      | |- silent (if ?b then _ else _) => destruct b
      | |- silent (match ?x with _ => _ end) => destruct x
      end ].

Lemma silent_request_failed (res : Response) (json : JSON) :
  silent (request_failed res json).
Proof. unfold request_failed. silence. Qed.

(** One fetch followed by silent code leaves exactly that exchange. *)
Lemma trace_fetch_then {A : Type} (f : Fetch) (req : Request)
      (k : Response -> M A) (tr : list Exchange) :
  (forall res, silent (k res)) ->
  snd (bind (await_fetch f req) k tr) = (tr ++ [(req, f tr req)])%list.
Proof.
  intros Hk. unfold bind, await_fetch.
  destruct (f tr req) as [res | reason]; simpl.
  - apply Hk.
  - reflexivity.
Qed.

Ltac unfold_execute :=
  unfold run;
  cbv beta iota delta
    [execute createListHttpEventsTool createListNetworkListTool
     createCreateNetworkListTool createGetNetworkListTool
     createUpdateNetworkListTool].


(** C5.  In each of the five registered tools, for any argument object,
    when neither AZION_API_TOKEN nor AZION_TOKEN yields a token, execute
    returns a reply whose text contains "Missing AZION_API_TOKEN" and the
    trace of network exchanges stays empty. *)
Theorem missing_token_no_network_call
  (error_message : ZodType -> JSON -> string)
  (t : McpTool) (w : World) (args : Args) :
  In t (tools error_message) ->
  yields_no_token (AZION_API_TOKEN w) ->
  yields_no_token (AZION_TOKEN w) ->
  exists txt,
    run (execute t w args) = (Returned (text_reply txt), [])
    /\ contains "Missing AZION_API_TOKEN" txt = true.
Proof.
  intros Hin H1 H2.
  exists missing_token_text.
  split; [| reflexivity].
  unfold tools in Hin.
  destruct (env_token_none w H1 H2) as [E | E];
    repeat (destruct Hin as [<- | Hin];
            [unfold run; cbv beta iota delta
               [execute createListHttpEventsTool createListNetworkListTool
                createCreateNetworkListTool createGetNetworkListTool
                createUpdateNetworkListTool];
             rewrite E; reflexivity |]);
    destruct Hin.
Qed.

Lemma bind_lift_returned {A B : Type} (a : A) (k : A -> M B) :
  bind (lift (Returned a)) k = k a.
Proof. reflexivity. Qed.

Lemma bind_ret {A B : Type} (a : A) (k : A -> M B) :
  bind (ret a) k = k a.
Proof. reflexivity. Qed.

Lemma final_items_replace_all (fetchFn : Fetch) (u token : string) (args : Args) :
  assoc "replaceAll" args = Some (JBool true) ->
  final_items fetchFn u token args = ret (assoc "newItems" args).
Proof. intros H. unfold final_items. rewrite H. reflexivity. Qed.

(** C4.  An update called with replaceAll = true sends one request, the
    PATCH, whose body's items is the newItems argument itself, whatever the
    upstream holds or answers; no GET precedes it. *)
Theorem replace_all_sends_new_items_verbatim
  (error_message : ZodType -> JSON -> string)
  (w : World) (args : Args) (c : ascii) (token' : string) (fetchFn : Fetch)
  (id : Z) (newItems : JSON) :
  env_token w = Some (String c token') ->
  fetch w = Some fetchFn ->
  assoc "networkListId" args = Some (JNum id) ->
  assoc "newItems" args = Some newItems ->
  assoc "replaceAll" args = Some (JBool true) ->
  requests (snd (run (execute (update_tool error_message) w args)))
  = [ patch_request (String c token') id newItems ].
Proof.
  intros Htok Hfetch Hid Hnew Hrep.
  unfold update_tool. unfold_execute.
  rewrite Htok, Hfetch, Hid.
  change (to_string (Some (JNum id))) with (Returned (A := string) (string_of_Z id)).
  rewrite bind_lift_returned. cbv zeta.
  rewrite (final_items_replace_all _ _ _ _ Hrep), Hnew, bind_ret.
  rewrite trace_fetch_then.
  - reflexivity.
  - intro res. cbv zeta. silence.
Qed.

(** C9.  A create call sends one POST whose body carries the caller's
    items as they are, duplicates included, and whose active field is the
    supplied value, or true when active is omitted. *)
Theorem create_sends_items_verbatim
  (error_message : ZodType -> JSON -> string)
  (w : World) (args : Args) (c : ascii) (token' : string) (fetchFn : Fetch)
  (name_ type_ : string) (items : list string) :
  env_token w = Some (String c token') ->
  fetch w = Some fetchFn ->
  assoc "name" args = Some (JStr name_) ->
  assoc "type" args = Some (JStr type_) ->
  assoc "items" args = Some (JArr (strings items)) ->
  (assoc "active" args = None \/ exists a, assoc "active" args = Some (JBool a)) ->
  requests (snd (run (execute (create_tool error_message) w args)))
  = [ {| url := "https://edge-api.azion.net/workspace/api/network_lists";
         method := "POST";
         headers := [ ("Accept", "application/json");
                      ("Content-Type", "application/json");
                      ("Authorization", "Token " ++ String c token') ];
         body := Some (JObj [ ("name", JStr name_);
                              ("type", JStr type_);
                              ("items", JArr (strings items));
                              ("active",
                               match assoc "active" args with
                               | Some (JBool a) => JBool a
                               | _ => JBool true
                               end) ]) |} ].
Proof.
  intros Htok Hfetch Hname Htype Hitems Hactive.
  unfold create_tool. unfold_execute.
  rewrite Htok, Hfetch, Hname, Htype, Hitems. cbv zeta.
  rewrite trace_fetch_then.
  - destruct Hactive as [-> | [a ->]]; reflexivity.
  - intro res. silence.
Qed.

(** ** The set built from a list of strings *)

Lemma existsb_same_value_zero_strings (x : string) (l : list string) :
  existsb (same_value_zero (JStr x)) (strings l) = existsb (String.eqb x) l.
Proof.
  induction l as [| y l IH]; simpl; [reflexivity |].
  now rewrite IH.
Qed.

Lemma existsb_eqb_In (x : string) (l : list string) :
  existsb (String.eqb x) l = true <-> In x l.
Proof.
  rewrite existsb_exists. split.
  - intros [y [Hy E]]. apply String.eqb_eq in E. now subst.
  - intros H. exists x. split; [assumption | apply String.eqb_refl].
Qed.

Lemma filter_remove_absorbed (acc : list string) (x : string) (l : list string) :
  fresh_in acc x = false ->
  filter (fresh_in acc) (remove string_dec x l) = filter (fresh_in acc) l.
Proof.
  intros Hx. induction l as [| y l IH]; simpl; [reflexivity |].
  destruct (string_dec x y) as [<- | Hne].
  - rewrite Hx. exact IH.
  - simpl. now rewrite IH.
Qed.

Lemma filter_fresh_snoc (acc : list string) (x : string) (l : list string) :
  filter (fresh_in (acc ++ [x])) l = filter (fresh_in acc) (remove string_dec x l).
Proof.
  induction l as [| y l IH]; simpl; [reflexivity |].
  unfold fresh_in at 1. rewrite existsb_app. simpl. rewrite orb_false_r.
  destruct (string_dec x y) as [<- | Hne].
  - rewrite String.eqb_refl, orb_true_r. simpl. exact IH.
  - assert (E : String.eqb y x = false).
    { apply String.eqb_neq. congruence. }
    rewrite E, orb_false_r. simpl. fold (fresh_in acc y).
    destruct (fresh_in acc y); now rewrite IH.
Qed.

Lemma fold_Set_add_strings (l acc : list string) :
  fold_left Set_add (strings l) (strings acc)
  = strings (acc ++ filter (fresh_in acc) (keep_first l)).
Proof.
  revert acc. induction l as [| x l IH]; intros acc; simpl.
  - now rewrite app_nil_r.
  - unfold Set_add at 2. rewrite existsb_same_value_zero_strings.
    unfold fresh_in at 1.
    destruct (existsb (String.eqb x) acc) eqn:E; simpl.
    + rewrite IH. rewrite filter_remove_absorbed; [reflexivity |].
      unfold fresh_in. now rewrite E.
    + change (strings acc ++ [JStr x])%list with (strings acc ++ strings [x])%list.
      unfold strings at 2 3. rewrite <- map_app. fold (strings (acc ++ [x])).
      rewrite IH, filter_fresh_snoc, <- app_assoc. reflexivity.
Qed.

(** [[...new Set(l)]] on strings is the deduplicated union of the
    specification. *)
Lemma new_Set_strings (l : list string) :
  new_Set (strings l) = strings (keep_first l).
Proof.
  unfold new_Set. change (@nil JSON) with (strings []).
  rewrite fold_Set_add_strings. simpl.
  f_equal. induction (keep_first l) as [| y k IH]; simpl; [reflexivity |].
  now rewrite IH.
Qed.

Lemma keep_first_In (x : string) (l : list string) :
  In x (keep_first l) <-> In x l.
Proof.
  induction l as [| y l IH]; simpl; [tauto |].
  split.
  - intros [-> | H]; [now left |].
    apply in_remove in H. right. now apply IH.
  - intros [-> | H]; [now left |].
    destruct (string_dec y x) as [-> | Hne]; [now left |].
    right. apply in_in_remove; [congruence | now apply IH].
Qed.

Lemma NoDup_remove (x : string) (l : list string) :
  NoDup l -> NoDup (remove string_dec x l).
Proof.
  induction 1 as [| y l Hy Hl IH]; simpl; [constructor |].
  destruct (string_dec x y); [assumption |].
  constructor; [| assumption].
  intros H. apply in_remove in H. tauto.
Qed.

Lemma keep_first_NoDup (l : list string) : NoDup (keep_first l).
Proof.
  induction l as [| x l IH]; simpl; constructor.
  - apply remove_In.
  - now apply NoDup_remove.
Qed.

Lemma strings_NoDup (l : list string) : NoDup l -> NoDup (strings l).
Proof.
  induction 1 as [| x l Hx Hl IH]; simpl; constructor; [| assumption].
  unfold strings. rewrite in_map_iff. intros [y [E Hy]].
  injection E as ->. contradiction.
Qed.

(** ** The requests of an update *)

Lemma bind_at {A B : Type} (c : M A) (k : A -> M B)
      (tr tr' : list Exchange) (a : A) :
  c tr = (Returned a, tr') -> bind c k tr = k a tr'.
Proof. intros H. unfold bind. now rewrite H. Qed.

Lemma await_fetch_resolved (f : Fetch) (req : Request)
      (tr : list Exchange) (res : Response) :
  f tr req = Resolved res ->
  await_fetch f req tr = (Returned res, (tr ++ [(req, Resolved res)])%list).
Proof. intros H. unfold await_fetch. now rewrite H. Qed.

Lemma get_prop_defined (j : JSON) (k : string) :
  j <> JNull -> get_prop (Some j) k = Returned (get_prop_opt (Some j) k).
Proof. destruct j; intros H; try reflexivity. contradiction. Qed.

Lemma truthy_not_null (v : Value) :
  truthy v = true -> exists j, v = Some j /\ j <> JNull.
Proof.
  destruct v as [j |]; [| discriminate].
  intros H. exists j. split; [reflexivity |].
  intros ->. discriminate.
Qed.

(** The merge: the GET succeeded and its body has [data.items], an
    array. *)
Lemma final_items_merged (f : Fetch) (id : Z) (token : string) (args : Args)
      (tr : list Exchange) (getRes : Response) (existing added : list JSON) :
  truthy (assoc "replaceAll" args) = false ->
  assoc "newItems" args = Some (JArr added) ->
  f tr (get_request token id) = Resolved getRes ->
  fetched_items getRes = Some (JArr existing) ->
  final_items f (entity_url id) token args tr
  = (Returned (Some (JArr (new_Set (existing ++ added)))),
     (tr ++ [(get_request token id, Resolved getRes)])%list).
Proof.
  intros Hrep Hnew Hget Hitems.
  unfold final_items. rewrite Hrep. cbn [negb].
  erewrite bind_at by (apply await_fetch_resolved; exact Hget).
  unfold fetched_items in Hitems.
  destruct (ok getRes); [| discriminate].
  unfold json_or.
  destruct (json_body getRes) as [cur |]; [| discriminate].
  destruct cur as [| | | | | fs]; try discriminate.
  simpl in Hitems. simpl get_prop. rewrite bind_lift_returned.
  destruct (assoc "data" fs) as [[| | | | | dfs] |]; try discriminate.
  simpl in Hitems. simpl. rewrite Hitems, Hnew. reflexivity.
Qed.

(** The fallback: the GET did not succeed, or its body has no
    [data.items]. *)
Lemma final_items_fallback (f : Fetch) (id : Z) (token : string) (args : Args)
      (tr : list Exchange) (getRes : Response) :
  truthy (assoc "replaceAll" args) = false ->
  f tr (get_request token id) = Resolved getRes ->
  fetched_items getRes = None ->
  (ok getRes = true -> json_body getRes <> Some JNull) ->
  final_items f (entity_url id) token args tr
  = (Returned (assoc "newItems" args),
     (tr ++ [(get_request token id, Resolved getRes)])%list).
Proof.
  intros Hrep Hget Hitems Hnull.
  unfold final_items. rewrite Hrep. cbn [negb].
  erewrite bind_at by (apply await_fetch_resolved; exact Hget).
  unfold fetched_items in Hitems.
  destruct (ok getRes); [| reflexivity].
  specialize (Hnull eq_refl).
  unfold json_or.
  destruct (json_body getRes) as [cur |]; [| reflexivity].
  assert (Hcur : cur <> JNull) by congruence.
  rewrite (get_prop_defined cur "data" Hcur), bind_lift_returned.
  destruct (truthy (get_prop_opt (Some cur) "data")) eqn:Hd; [| reflexivity].
  destruct (truthy_not_null _ Hd) as [d [Ed Hdn]].
  rewrite Ed in *.
  rewrite (get_prop_defined d "items" Hdn), bind_lift_returned, Hitems.
  reflexivity.
Qed.

(** Once the final items are known, the update sends them in one PATCH. *)
Lemma update_requests (error_message : ZodType -> JSON -> string)
      (w : World) (args : Args) (c : ascii) (token' : string) (f : Fetch)
      (id : Z) (final : JSON) (tr' : list Exchange) :
  env_token w = Some (String c token') ->
  fetch w = Some f ->
  assoc "networkListId" args = Some (JNum id) ->
  final_items f (entity_url id) (String c token') args [] = (Returned (Some final), tr') ->
  requests (snd (run (execute (update_tool error_message) w args)))
  = (requests tr' ++ [ patch_request (String c token') id final ])%list.
Proof.
  intros Htok Hfetch Hid Hfinal.
  unfold update_tool. unfold_execute.
  rewrite Htok, Hfetch, Hid.
  change (to_string (Some (JNum id))) with (Returned (A := string) (string_of_Z id)).
  rewrite bind_lift_returned. cbv zeta.
  unfold entity_url in Hfinal.
  erewrite bind_at by exact Hfinal.
  rewrite trace_fetch_then.
  - unfold requests. rewrite map_app. reflexivity.
  - intro res. silence.
Qed.

(** C1.  An update called with replaceAll false or omitted, whose
    preliminary GET succeeds with a body that has data.items, sends the
    GET and then a PATCH whose items is the deduplicated union of the
    existing items followed by the new items, each string kept where it
    first occurs. *)
Theorem merge_sends_deduplicated_union
  (error_message : ZodType -> JSON -> string)
  (w : World) (args : Args) (c : ascii) (token' : string) (fetchFn : Fetch)
  (id : Z) (newItems existing : list string) (getRes : Response) :
  env_token w = Some (String c token') ->
  fetch w = Some fetchFn ->
  assoc "networkListId" args = Some (JNum id) ->
  assoc "newItems" args = Some (JArr (strings newItems)) ->
  truthy (assoc "replaceAll" args) = false ->
  fetchFn [] (get_request (String c token') id) = Resolved getRes ->
  fetched_items getRes = Some (JArr (strings existing)) ->
  requests (snd (run (execute (update_tool error_message) w args)))
  = [ get_request (String c token') id;
      patch_request (String c token') id
        (JArr (strings (keep_first (existing ++ newItems)))) ].
Proof.
  intros Htok Hfetch Hid Hnew Hrep Hget Hitems.
  rewrite (update_requests error_message w args c token' fetchFn id
             (JArr (new_Set (strings existing ++ strings newItems)))
             [(get_request (String c token') id, Resolved getRes)]
             Htok Hfetch Hid).
  - unfold strings at 1 2. rewrite <- map_app. fold (strings (existing ++ newItems)).
    rewrite new_Set_strings. reflexivity.
  - apply (final_items_merged fetchFn id (String c token') args [] getRes
             (strings existing) (strings newItems) Hrep Hnew Hget Hitems).
Qed.

Lemma missing_token_no_network_call_witness :
  exists txt,
    run (execute (get_tool sample_diagnostic) world_without_token
           [ ("networkListId", JNum 48334) ])
    = (Returned (text_reply txt), [])
    /\ contains "Missing AZION_API_TOKEN" txt = true.
Proof.
  apply (missing_token_no_network_call sample_diagnostic).
  - unfold tools. simpl. do 3 right. left. reflexivity.
  - left. reflexivity.
  - right. reflexivity.
Defined.

Lemma replace_all_sends_new_items_verbatim_witness :
  requests (snd (run (execute (update_tool sample_diagnostic)
                        (world_with (Some (upstream_holding ["10.0.0.0/8"])))
                        [ ("networkListId", JNum 48334);
                          ("newItems", JArr [JStr "a"; JStr "a"]);
                          ("replaceAll", JBool true) ])))
  = [ patch_request "secret" 48334 (JArr [JStr "a"; JStr "a"]) ].
Proof.
  apply (replace_all_sends_new_items_verbatim sample_diagnostic
           (world_with (Some (upstream_holding ["10.0.0.0/8"]))) _
           "s"%char "ecret" (upstream_holding ["10.0.0.0/8"]));
    reflexivity.
Defined.

Lemma create_sends_items_verbatim_witness :
  map body
    (requests (snd (run (execute (create_tool sample_diagnostic)
                           (world_with (Some (upstream_holding [])))
                           [ ("name", JStr "n"); ("type", JStr "ip_cidr");
                             ("items", JArr [JStr "x"; JStr "x"]) ]))))
  = [ Some (JObj [ ("name", JStr "n"); ("type", JStr "ip_cidr");
                   ("items", JArr [JStr "x"; JStr "x"]);
                   ("active", JBool true) ]) ].
Proof.
  rewrite (create_sends_items_verbatim sample_diagnostic
             (world_with (Some (upstream_holding []))) _
             "s"%char "ecret" (upstream_holding []) "n" "ip_cidr" ["x"; "x"]);
    try reflexivity.
  left. reflexivity.
Defined.

Lemma merge_sends_deduplicated_union_witness :
  requests (snd (run (execute (update_tool sample_diagnostic)
                        (world_with (Some (upstream_holding ["A"; "B"])))
                        [ ("networkListId", JNum 48334);
                          ("newItems", JArr [JStr "B"; JStr "C"]) ])))
  = [ get_request "secret" 48334;
      patch_request "secret" 48334 (JArr [JStr "A"; JStr "B"; JStr "C"]) ].
Proof.
  apply (merge_sends_deduplicated_union sample_diagnostic
           (world_with (Some (upstream_holding ["A"; "B"]))) _
           "s"%char "ecret" (upstream_holding ["A"; "B"]) 48334
           ["B"; "C"] ["A"; "B"]
           {| status := 200; statusText := "OK";
              json_body := Some (JObj [ ("data", sample_entity ["A"; "B"]) ]) |});
    reflexivity.
Defined.

(** C2, as stated, fails in the fallback: with a preliminary GET that is
    answered 500 and newItems = ["x"; "x"], the PATCH carries ["x"; "x"]. *)
Lemma fallback_keeps_duplicates :
  exists items,
    requests (snd (run (execute (update_tool sample_diagnostic)
                          (world_with (Some upstream_failing))
                          [ ("networkListId", JNum 48334);
                            ("newItems", JArr [JStr "x"; JStr "x"]);
                            ("replaceAll", JBool false) ])))
    = [ get_request "secret" 48334;
        patch_request "secret" 48334 (JArr items) ]
    /\ ~ NoDup items.
Proof.
  exists [JStr "x"; JStr "x"]. split.
  - vm_compute. reflexivity.
  - intros H. inversion H as [| x l Hx Hl]; subst. apply Hx. now left.
Qed.

(** C2, amended.  On the merge path (replaceAll false or omitted), when
    the preliminary GET succeeds and its body has data.items, the items of
    the PATCH have no duplicates; when the GET is answered without
    success, or its body has no data.items, the items of the PATCH are
    newItems as supplied. *)
Theorem merge_path_items
  (error_message : ZodType -> JSON -> string)
  (w : World) (args : Args) (c : ascii) (token' : string) (fetchFn : Fetch)
  (id : Z) (newItems : list string) (getRes : Response) :
  env_token w = Some (String c token') ->
  fetch w = Some fetchFn ->
  assoc "networkListId" args = Some (JNum id) ->
  assoc "newItems" args = Some (JArr (strings newItems)) ->
  truthy (assoc "replaceAll" args) = false ->
  fetchFn [] (get_request (String c token') id) = Resolved getRes ->
  (forall existing,
      fetched_items getRes = Some (JArr (strings existing)) ->
      exists items,
        requests (snd (run (execute (update_tool error_message) w args)))
        = [ get_request (String c token') id;
            patch_request (String c token') id (JArr items) ]
        /\ NoDup items)
  /\ (fetched_items getRes = None ->
      (ok getRes = true -> json_body getRes <> Some JNull) ->
      requests (snd (run (execute (update_tool error_message) w args)))
      = [ get_request (String c token') id;
          patch_request (String c token') id (JArr (strings newItems)) ]).
Proof.
  intros Htok Hfetch Hid Hnew Hrep Hget. split.
  - intros existing Hitems.
    exists (strings (keep_first (existing ++ newItems))). split.
    + rewrite (update_requests error_message w args c token' fetchFn id
                 (JArr (new_Set (strings existing ++ strings newItems)))
                 [(get_request (String c token') id, Resolved getRes)]
                 Htok Hfetch Hid).
      * unfold strings at 1 2. rewrite <- map_app.
        fold (strings (existing ++ newItems)).
        rewrite new_Set_strings. reflexivity.
      * apply (final_items_merged fetchFn id (String c token') args [] getRes
                 (strings existing) (strings newItems) Hrep Hnew Hget Hitems).
    + apply strings_NoDup, keep_first_NoDup.
  - intros Hnone Hnull.
    rewrite (update_requests error_message w args c token' fetchFn id
               (JArr (strings newItems))
               [(get_request (String c token') id, Resolved getRes)]
               Htok Hfetch Hid).
    + reflexivity.
    + rewrite <- Hnew.
      apply (final_items_fallback fetchFn id (String c token') args [] getRes
               Hrep Hget Hnone Hnull).
Qed.

Lemma merge_path_items_witness :
  (exists items,
      requests (snd (run (execute (update_tool sample_diagnostic)
                            (world_with (Some (upstream_holding ["A"; "B"])))
                            [ ("networkListId", JNum 48334);
                              ("newItems", JArr [JStr "B"; JStr "B"]) ])))
      = [ get_request "secret" 48334;
          patch_request "secret" 48334 (JArr items) ]
      /\ NoDup items)
  /\ requests (snd (run (execute (update_tool sample_diagnostic)
                           (world_with (Some upstream_failing))
                           [ ("networkListId", JNum 48334);
                             ("newItems", JArr [JStr "x"; JStr "x"]) ])))
     = [ get_request "secret" 48334;
         patch_request "secret" 48334 (JArr [JStr "x"; JStr "x"]) ].
Proof.
  split.
  - apply (proj1 (merge_path_items sample_diagnostic
             (world_with (Some (upstream_holding ["A"; "B"])))
             [ ("networkListId", JNum 48334);
               ("newItems", JArr [JStr "B"; JStr "B"]) ]
             "s"%char "ecret" (upstream_holding ["A"; "B"]) 48334 ["B"; "B"]
             {| status := 200; statusText := "OK";
                json_body := Some (JObj [ ("data", sample_entity ["A"; "B"]) ]) |}
             eq_refl eq_refl eq_refl eq_refl eq_refl eq_refl) ["A"; "B"]).
    reflexivity.
  - apply (proj2 (merge_path_items sample_diagnostic
             (world_with (Some upstream_failing))
             [ ("networkListId", JNum 48334);
               ("newItems", JArr [JStr "x"; JStr "x"]) ]
             "s"%char "ecret" upstream_failing 48334 ["x"; "x"]
             {| status := 500; statusText := "Internal Server Error";
                json_body := Some (JObj [ ("detail", JStr "unavailable") ]) |}
             eq_refl eq_refl eq_refl eq_refl eq_refl eq_refl)).
    + reflexivity.
    + discriminate.
Defined.

(** ** What a successful parse tells *)

Lemma parse_object_eq (sh : list (string * ZodType)) (fs : list (string * JSON)) :
  parse (ZObject sh) (Some (JObj fs))
  = match parse_shape fs sh with
    | Some out => Some (Some (JObj out))
    | None => None
    end.
Proof.
  cbn [parse]. 
  match goal with
  | |- match ?F sh with _ => _ end = _ =>
      assert (E : forall s, F s = parse_shape fs s);
      [| now rewrite E ]
  end.
  induction s as [| [k t] rest IH]; [reflexivity |].
  cbn [parse_shape]. rewrite <- IH. reflexivity.
Qed.

Lemma parse_object_inv (sh : list (string * ZodType)) (v out : Value) :
  parse (ZObject sh) v = Some out ->
  exists fs o, v = Some (JObj fs) /\ parse_shape fs sh = Some o /\ out = Some (JObj o).
Proof.
  destruct v as [[| | | | | fs] |]; try discriminate.
  rewrite parse_object_eq.
  destruct (parse_shape fs sh) as [o |] eqn:E; [| discriminate].
  intros H. injection H as <-. now exists fs, o.
Qed.

Lemma parse_shape_cons_inv (fs : list (string * JSON)) (k : string) (t : ZodType)
      (rest : list (string * ZodType)) (out : list (string * JSON)) :
  parse_shape fs ((k, t) :: rest) = Some out ->
  exists y o,
    parse t (assoc k fs) = Some y
    /\ parse_shape fs rest = Some o
    /\ out = match y with Some j => (k, j) :: o | None => o end.
Proof.
  cbn [parse_shape].
  destruct (parse t (assoc k fs)) as [[j |] |]; [| | discriminate];
    destruct (parse_shape fs rest) as [o |]; try discriminate;
    intros H; injection H as <-; eauto.
Qed.

Lemma parse_string_inv (v out : Value) :
  parse ZString v = Some out -> exists s, v = Some (JStr s) /\ out = Some (JStr s).
Proof.
  destruct v as [[| | | s | |] |]; try discriminate.
  intros H. injection H as <-. eauto.
Qed.

Lemma parse_number_inv (v out : Value) :
  parse ZNumber v = Some out -> exists n, v = Some (JNum n) /\ out = Some (JNum n).
Proof.
  destruct v as [[| | n | | |] |]; try discriminate.
  intros H. injection H as <-. eauto.
Qed.

Lemma parse_boolean_inv (v out : Value) :
  parse ZBoolean v = Some out -> exists b, v = Some (JBool b) /\ out = Some (JBool b).
Proof.
  destruct v as [[| b | | | |] |]; try discriminate.
  intros H. injection H as <-. eauto.
Qed.

Lemma parse_array_inv (e : ZodType) (v out : Value) :
  parse (ZArray e) v = Some out ->
  exists l o, v = Some (JArr l) /\ parse_elems (parse e) l = Some o
              /\ out = Some (JArr o).
Proof.
  destruct v as [[| | | | l |] |]; try discriminate.
  cbn [parse].
  destruct (parse_elems (parse e) l) as [o |] eqn:E; [| discriminate].
  intros H. injection H as <-. eauto.
Qed.

Lemma parse_elems_strings (l o : list JSON) :
  parse_elems (parse ZString) l = Some o ->
  o = l /\ exists ss, l = strings ss.
Proof.
  revert o. induction l as [| x l IH]; intros o; cbn [parse_elems].
  - intros H. injection H as <-. split; [reflexivity | now exists []].
  - destruct (parse ZString (Some x)) as [[y |] |] eqn:E; try discriminate.
    destruct (parse_elems (parse ZString) l) as [ys |]; [| discriminate].
    intros H. injection H as <-.
    apply parse_string_inv in E. destruct E as [s [Ex Ey]].
    injection Ex as ->. injection Ey as ->.
    destruct (IH ys eq_refl) as [-> [ss ->]].
    split; [reflexivity | now exists (s :: ss)].
Qed.

Lemma parse_string_array_inv (v out : Value) :
  parse (ZArray ZString) v = Some out ->
  exists ss, v = Some (JArr (strings ss)) /\ out = Some (JArr (strings ss)).
Proof.
  intros H. apply parse_array_inv in H.
  destruct H as (l & o & -> & H & ->).
  apply parse_elems_strings in H. destruct H as [-> [ss ->]]. eauto.
Qed.


Lemma parse_optional_boolean_inv (v out : Value) :
  parse (ZOptional ZBoolean) v = Some out ->
  v = None \/ exists b, v = Some (JBool b).
Proof.
  destruct v as [j |]; [| now left].
  intros H. right. change (parse ZBoolean (Some j) = Some out) in H.
  apply parse_boolean_inv in H.
  destruct H as [b [E _]]. eauto.
Qed.

(** The entity that get, update and create validate: its parsed output
    has the seven declared fields, and its items are those of the
    payload, an array of strings. *)
Lemma parse_entity_inv (v out : Value) :
  parse NetworkListEntity v = Some out ->
  exists fs id name_ type_ items editor modified active,
    v = Some (JObj fs)
    /\ assoc "items" fs = Some (JArr (strings items))
    /\ out = Some (JObj [ ("id", JNum id);
                          ("name", JStr name_);
                          ("type", JStr type_);
                          ("items", JArr (strings items));
                          ("last_editor", JStr editor);
                          ("last_modified", JStr modified);
                          ("active", JBool active) ]).
Proof.
  unfold NetworkListEntity. intros H.
  apply parse_object_inv in H. destruct H as (fs & o & -> & H & ->).
  repeat (apply parse_shape_cons_inv in H;
          let y := fresh "y" in let o' := fresh "o" in
          let P := fresh "P" in
          destruct H as (y & o' & P & H & ->)).
  cbn [parse_shape] in H. injection H as <-.
  apply parse_number_inv in P. destruct P as (id & _ & ->).
  apply parse_string_inv in P0. destruct P0 as (name_ & _ & ->).
  apply parse_string_inv in P1. destruct P1 as (type_ & _ & ->).
  apply parse_string_array_inv in P2. destruct P2 as (items & Hitems & ->).
  apply parse_string_inv in P3. destruct P3 as (editor & _ & ->).
  apply parse_string_inv in P4. destruct P4 as (modified & _ & ->).
  apply parse_boolean_inv in P5. destruct P5 as (active & _ & ->).
  exists fs, id, name_, type_, items, editor, modified, active. auto.
Qed.

Arguments pretty : simpl never.
Arguments string_of_Z : simpl never.
Arguments toISOString : simpl never.
Arguments String.append : simpl never.

Lemma parse_get_envelope_inv (payload : JSON) (out : Value) :
  parse GetNetworkList.NetworkListSchema (Some payload) = Some out ->
  exists id name_ type_ items editor modified active,
    get_prop_opt (get_prop_opt (Some payload) "data") "items"
    = Some (JArr (strings items))
    /\ out = Some (JObj [ ("data", entity_record id name_ type_ items
                                     editor modified active) ]).
Proof.
  unfold GetNetworkList.NetworkListSchema. intros H.
  apply parse_object_inv in H. destruct H as (fs & o & E & H & ->).
  injection E as ->.
  apply parse_shape_cons_inv in H. destruct H as (y & o' & P & H & ->).
  cbn [parse_shape] in H. injection H as <-.
  apply parse_entity_inv in P.
  destruct P as (efs & id & name_ & type_ & items & editor & modified & active
                 & Edata & Hitems & ->).
  exists id, name_, type_, items, editor, modified, active.
  split; [| reflexivity].
  cbn [get_prop_opt]. rewrite Edata. exact Hitems.
Qed.

Lemma append_assoc (a b c : string) : (a ++ b) ++ c = a ++ (b ++ c).
Proof.
  induction a as [| x a IH]; [reflexivity |].
  change (String x ((a ++ b) ++ c) = String x (a ++ (b ++ c))).
  now rewrite IH.
Qed.

Lemma includes_strings (items : list string) (ip : string) :
  includes (strings items) (Some (JStr ip)) = existsb (String.eqb ip) items.
Proof. apply existsb_same_value_zero_strings. Qed.

Lemma truthy_nonempty (s : string) : s <> "" -> truthy (Some (JStr s)) = true.
Proof.
  intros H. cbn [truthy]. destruct s; [contradiction | reflexivity].
Qed.

(** C6, amended.  A get call with a non-empty checkIp, answered with a
    validated entity, ends its reply with the line "IP Check: <checkIp> is
    already present in the network list." exactly when checkIp is equal to
    one of the strings of data.items, and with the line saying "is NOT
    present" otherwise.  Nothing but string equality is involved. *)
Theorem ip_check_is_exact_membership
  (error_message : ZodType -> JSON -> string)
  (w : World) (args : Args) (c : ascii) (token' : string) (fetchFn : Fetch)
  (id : Z) (ip : string) (res : Response) (payload : JSON) (parsed : Value) :
  env_token w = Some (String c token') ->
  fetch w = Some fetchFn ->
  assoc "networkListId" args = Some (JNum id) ->
  assoc "checkIp" args = Some (JStr ip) ->
  ip <> "" ->
  fetchFn [] (get_request (String c token') id) = Resolved res ->
  ok res = true ->
  json_body res = Some payload ->
  parse GetNetworkList.NetworkListSchema (Some payload) = Some parsed ->
  exists items details verdict,
    fetched_items res = Some (JArr (strings items))
    /\ fst (run (execute (get_tool error_message) w args))
       = Returned (text_reply (details ++ ip_check_line ip verdict))
    /\ ((In ip items /\ verdict = "is already present")
        \/ (~ In ip items /\ verdict = "is NOT present")).
Proof.
  intros Htok Hfetch Hid Hip Hne Hget Hok Hbody Hparse.
  destruct (parse_get_envelope_inv payload parsed Hparse)
    as (eid & name_ & type_ & items & editor & modified & active & Hitems & ->).
  exists items.
  exists ("Network List Details (ID: " ++ string_of_Z eid ++ "):" ++ newline
          ++ newline
          ++ pretty (Some (entity_record eid name_ type_ items editor modified active))).
  exists (if existsb (String.eqb ip) items
          then "is already present" else "is NOT present").
  split; [| split].
  - unfold fetched_items. now rewrite Hok, Hbody.
  - unfold get_tool. unfold_execute.
    rewrite Htok, Hfetch, Hid.
    change (to_string (Some (JNum id))) with (Returned (A := string) (string_of_Z id)).
    rewrite bind_lift_returned. cbv zeta.
    erewrite bind_at by (apply await_fetch_resolved; exact Hget).
    rewrite Hok. cbn [negb]. unfold json_or, safeParse. rewrite Hbody, Hparse.
    rewrite Hip, (truthy_nonempty ip Hne).
    unfold entity_record.
    cbn [get_prop assoc String.eqb Ascii.eqb Bool.eqb lift bind ret fst
         array_includes to_string json_to_string].
    rewrite includes_strings.
    unfold ip_check_line.
    rewrite !append_assoc. reflexivity.
  - destruct (existsb (String.eqb ip) items) eqn:E.
    + left. split; [now apply existsb_eqb_In | reflexivity].
    + right. split; [| reflexivity].
      intros Hin. apply existsb_eqb_In in Hin. congruence.
Qed.

Lemma ip_check_is_exact_membership_witness :
  exists items details verdict,
    fetched_items {| status := 200; statusText := "OK";
                     json_body := Some (JObj [ ("data", sample_entity ["10.0.0.0/8"]) ]) |}
    = Some (JArr (strings items))
    /\ fst (run (execute (get_tool sample_diagnostic)
                   (world_with (Some (upstream_holding ["10.0.0.0/8"])))
                   [ ("networkListId", JNum 48334); ("checkIp", JStr "10.0.0.5") ]))
       = Returned (text_reply (details ++ ip_check_line "10.0.0.5" verdict))
    /\ ((In "10.0.0.5" items /\ verdict = "is already present")
        \/ (~ In "10.0.0.5" items /\ verdict = "is NOT present")).
Proof.
  apply (ip_check_is_exact_membership sample_diagnostic
           (world_with (Some (upstream_holding ["10.0.0.0/8"])))
           [ ("networkListId", JNum 48334); ("checkIp", JStr "10.0.0.5") ]
           "s"%char "ecret" (upstream_holding ["10.0.0.0/8"]) 48334 "10.0.0.5"
           {| status := 200; statusText := "OK";
              json_body := Some (JObj [ ("data", sample_entity ["10.0.0.0/8"]) ]) |}
           (JObj [ ("data", sample_entity ["10.0.0.0/8"]) ])
           (Some (JObj [ ("data", sample_entity ["10.0.0.0/8"]) ])));
    try reflexivity.
  discriminate.
Defined.

(** The example of the specification: 10.0.0.5 is reported as not present
    in a list that holds 10.0.0.0/8. *)
Example contained_address_is_not_present :
  exists txt,
    fst (run (execute (get_tool sample_diagnostic)
                (world_with (Some (upstream_holding ["10.0.0.0/8"])))
                [ ("networkListId", JNum 48334); ("checkIp", JStr "10.0.0.5") ]))
    = Returned (text_reply txt)
    /\ contains "IP Check: 10.0.0.5 is NOT present in the network list." txt = true
    /\ contains "is already present" txt = false.
Proof.
  eexists. split; [vm_compute; reflexivity |].
  split; vm_compute; reflexivity.
Qed.

(** C6, as stated, fails for an empty checkIp: it is supplied, it is equal
    to no item, and the reply has no line about it at all. *)
Lemma empty_check_ip_gets_no_line :
  exists txt,
    assoc "checkIp" [ ("networkListId", JNum 48334); ("checkIp", JStr "") ]
    = Some (JStr "")
    /\ ~ In "" ["10.0.0.0/8"]
    /\ fst (run (execute (get_tool sample_diagnostic)
                   (world_with (Some (upstream_holding ["10.0.0.0/8"])))
                   [ ("networkListId", JNum 48334); ("checkIp", JStr "") ]))
       = Returned (text_reply txt)
    /\ contains "is NOT present" txt = false
    /\ contains "is already present" txt = false.
Proof.
  eexists. split; [reflexivity |].
  split; [intros [H | []]; discriminate |].
  split; [vm_compute; reflexivity |].
  split; vm_compute; reflexivity.
Qed.

Lemma parse_events_envelope_inv (payload : JSON) (out : Value) :
  parse ListHttpEvents.ResponseSchema (Some payload) = Some out ->
  exists events,
    out = Some (JObj [ ("data", JObj [ ("httpEvents", JArr events) ]) ]).
Proof.
  unfold ListHttpEvents.ResponseSchema. intros H.
  apply parse_object_inv in H. destruct H as (fs & o & _ & H & ->).
  apply parse_shape_cons_inv in H. destruct H as (y & o' & P & H & ->).
  cbn [parse_shape] in H. injection H as <-.
  apply parse_object_inv in P. destruct P as (dfs & o & _ & H & ->).
  apply parse_shape_cons_inv in H. destruct H as (y & o' & P & H & ->).
  cbn [parse_shape] in H. injection H as <-.
  apply parse_array_inv in P. destruct P as (l & evs & _ & _ & ->).
  now exists evs.
Qed.

Lemma nullish_or_time_arg (v : Value) (t : Z) :
  optional_string v ->
  nullish_or v (JStr (toISOString t)) = JStr (time_arg v t).
Proof. intros [-> | [s ->]]; reflexivity. Qed.

(** C8.  A successful query_http_events call replies with the header
    "HTTP Events from <begin> to <end>", where <begin> and <end> are the
    argument strings as passed; an omitted begin is the ISO form of the
    clock reading minus five minutes and an omitted end the ISO form of the
    same clock reading. *)
Theorem http_events_header
  (error_message : ZodType -> JSON -> string)
  (w : World) (args : Args) (c : ascii) (token' : string) (fetchFn : Fetch)
  (res : Response) (payload : JSON) (parsed : Value) :
  env_token w = Some (String c token') ->
  fetch w = Some fetchFn ->
  optional_string (assoc "begin" args) ->
  optional_string (assoc "end" args) ->
  fetchFn [] (events_request (String c token')
                (time_arg (assoc "begin" args) (default_begin w))
                (time_arg (assoc "end" args) (default_end w)))
  = Resolved res ->
  ok res = true ->
  json_body res = Some payload ->
  parse ListHttpEvents.ResponseSchema (Some payload) = Some parsed ->
  default_end w - default_begin w = 5 * 60 * 1000
  /\ exists events,
      fst (run (execute (events_tool error_message) w args))
      = Returned (text_reply
                    ("HTTP Events from "
                     ++ time_arg (assoc "begin" args) (default_begin w)
                     ++ " to "
                     ++ time_arg (assoc "end" args) (default_end w)
                     ++ newline ++ newline ++ "Raw data:" ++ newline
                     ++ pretty (Some (JArr events)))).
Proof.
  intros Htok Hfetch Hb He Hpost Hok Hbody Hparse.
  split; [unfold default_end, default_begin; lia |].
  destruct (parse_events_envelope_inv payload parsed Hparse) as [events ->].
  exists events.
  unfold events_tool. unfold_execute. cbv zeta.
  rewrite Htok, Hfetch.
  rewrite (nullish_or_time_arg _ _ Hb), (nullish_or_time_arg _ _ He).
  fold (default_begin w) (default_end w).
  erewrite bind_at by (apply await_fetch_resolved; exact Hpost).
  rewrite Hok. cbn [negb]. unfold json_or, safeParse. rewrite Hbody, Hparse.
  cbn [get_prop assoc String.eqb Ascii.eqb Bool.eqb lift bind ret fst
       to_string json_to_string].
  rewrite !append_assoc. reflexivity.
Qed.

Lemma http_events_header_witness :
  default_end (world_with (Some upstream_events))
  - default_begin (world_with (Some upstream_events)) = 5 * 60 * 1000
  /\ exists events,
      fst (run (execute (events_tool sample_diagnostic)
                  (world_with (Some upstream_events)) []))
      = Returned (text_reply
                    ("HTTP Events from " ++ "2023-11-14T22:08:20.000Z"
                     ++ " to " ++ "2023-11-14T22:13:20.000Z"
                     ++ newline ++ newline ++ "Raw data:" ++ newline
                     ++ pretty (Some (JArr events)))).
Proof.
  apply (http_events_header sample_diagnostic
           (world_with (Some upstream_events)) []
           "s"%char "ecret" upstream_events
           {| status := 200; statusText := "OK";
              json_body :=
                Some (JObj [ ("data",
                              JObj [ ("httpEvents",
                                      JArr [ JObj [ ("ts", JStr "2023-11-14T22:10:00Z");
                                                    ("host", JStr "example.com");
                                                    ("status", JNum 200) ] ]) ]) ]) |}
           (JObj [ ("data",
                    JObj [ ("httpEvents",
                            JArr [ JObj [ ("ts", JStr "2023-11-14T22:10:00Z");
                                          ("host", JStr "example.com");
                                          ("status", JNum 200) ] ]) ]) ])
           (Some (JObj [ ("data",
                          JObj [ ("httpEvents",
                                  JArr [ JObj [ ("ts", JStr "2023-11-14T22:10:00Z");
                                                ("host", JStr "example.com");
                                                ("status", JNum 200) ] ]) ]) ])));
    try reflexivity.
  - left. reflexivity.
  - left. reflexivity.
Defined.

(** A begin and an end that are passed appear as they are. *)
Example http_events_header_of_arguments :
  exists rest,
    fst (run (execute (events_tool sample_diagnostic)
                (world_with (Some upstream_events))
                [ ("begin", JStr "2024-01-01T00:00:00Z");
                  ("end", JStr "2024-01-01T06:00:00Z") ]))
    = Returned (text_reply
                  ("HTTP Events from 2024-01-01T00:00:00Z to 2024-01-01T06:00:00Z"
                   ++ rest)).
Proof. eexists. vm_compute. reflexivity. Qed.

(** ** Taking a run apart *)

Lemma bind_inv {A B : Type} (c : M A) (k : A -> M B)
      (tr tr' : list Exchange) (result : Completion B) :
  bind c k tr = (result, tr') ->
  (exists a tr1, c tr = (Returned a, tr1) /\ k a tr1 = (result, tr'))
  \/ (exists e, c tr = (Thrown e, tr') /\ result = Thrown e).
Proof.
  unfold bind. destruct (c tr) as [[a | e] tr1].
  - intros H. left. eauto.
  - intros H. injection H as <- <-. right. eauto.
Qed.

Lemma bind_fetch_inv {A : Type} (f : Fetch) (rq : Request) (k : Response -> M A)
      (tr tr' : list Exchange) (result : Completion A) :
  (forall r, silent (k r)) ->
  bind (await_fetch f rq) k tr = (result, tr') ->
  (exists r, tr' = (tr ++ [(rq, Resolved r)])%list
             /\ result = fst (k r (tr ++ [(rq, Resolved r)])%list))
  \/ (exists e, tr' = (tr ++ [(rq, Rejected e)])%list).
Proof.
  intros Hk. unfold bind, await_fetch.
  destruct (f tr rq) as [r | e].
  - intros H. left. exists r.
    pose proof (Hk r (tr ++ [(rq, Resolved r)])%list) as Hs.
    rewrite H in Hs. simpl in Hs. subst tr'.
    rewrite H. auto.
  - intros H. injection H as _ <-. right. eauto.
Qed.

Lemma last_exchange (tr0 tr1 : list Exchange) (x y : Exchange) :
  (tr0 ++ [x])%list = (tr1 ++ [y])%list -> tr0 = tr1 /\ x = y.
Proof. apply app_inj_tail. Qed.

Lemma no_exchange (tr0 : list Exchange) (x : Exchange) :
  [] = (tr0 ++ [x])%list -> False.
Proof. destruct tr0; discriminate. Qed.

Lemma pure_ret {A : Type} (a : A) : pure (ret a).
Proof. exists (Returned a). reflexivity. Qed.

Lemma pure_lift {A : Type} (c : Completion A) : pure (lift c).
Proof. exists c. reflexivity. Qed.

Lemma pure_bind {A B : Type} (c : M A) (k : A -> M B) :
  pure c -> (forall a, pure (k a)) -> pure (bind c k).
Proof.
  intros [[a | e] Hc] Hk.
  - destruct (Hk a) as [v Hv]. exists v. intros tr.
    unfold bind. now rewrite Hc.
  - exists (Thrown e). intros tr. unfold bind. now rewrite Hc.
Qed.

Lemma pure_fst {A : Type} (c : M A) (tr1 tr2 : list Exchange) :
  pure c -> fst (c tr1) = fst (c tr2).
Proof. intros [v Hv]. now rewrite !Hv. Qed.

Ltac purity :=
  repeat first
    [ apply pure_ret
    | apply pure_lift
    | apply pure_bind; [| intro]
    | match goal with
      | |- pure (if ?b then _ else _) => destruct b
      | |- pure (match ?x with _ => _ end) => destruct x
      end ].

Ltac unfold_execute_in H :=
  unfold run in H;
  cbv beta iota zeta delta
    [execute createListHttpEventsTool createListNetworkListTool
     createCreateNetworkListTool createGetNetworkListTool
     createUpdateNetworkListTool events_tool list_tool create_tool get_tool
     update_tool] in H.

(** The run made no exchange, against a trace that ends with one. *)
Ltac no_exchange_in H :=
  exfalso;
  match type of H with
  | _ = (_, (?tr0 ++ [?x])%list) =>
      apply (f_equal snd) in H; cbn [snd ret lift bind] in H;
      exact (no_exchange tr0 x H)
  end.

(** Opens a run up to its first fetch: the token and the fetch primitive
    are there, since an exchange was made. *)
Ltac open_run H :=
  unfold_execute_in H;
  destruct (env_token _) as [[| ?c ?token'] |]; [no_exchange_in H | | no_exchange_in H];
  try (destruct (to_string (assoc "networkListId" _)) as [?id_text | ?e];
       [rewrite bind_lift_returned in H | no_exchange_in H]);
  destruct (fetch _) as [?f |]; [| no_exchange_in H].

(** The single fetch of a run is the exchange the trace ends with. *)
Ltac single_fetch H :=
  apply bind_fetch_inv in H; [| intro; silence];
  destruct H as [(?r & H & ?Hresult) | (?e & H)];
  apply last_exchange in H; destruct H as [? H];
  [injection H as ? ?; subst | discriminate H].

Lemma final_items_trace (f : Fetch) (u token : string) (args : Args)
      (tr tr' : list Exchange) (v : Completion Value) :
  final_items f u token args tr = (v, tr') ->
  tr' = tr
  \/ exists rq o, tr' = (tr ++ [(rq, o)])%list /\ method rq = "GET".
Proof.
  unfold final_items.
  destruct (negb (truthy (assoc "replaceAll" args))).
  - intros H. right.
    match type of H with
    | bind (await_fetch _ ?rq) _ _ = _ => exists rq
    end.
    apply bind_fetch_inv in H; [| intro; silence].
    destruct H as [(r & -> & _) | (e & ->)]; eauto.
  - intros H. injection H as _ <-. now left.
Qed.



(** Reaches the exchange a tool validates: [H] is the run, [Hm] says that
    the last request has the validated method. *)
Ltac validated_exchange H Hm :=
  open_run H;
  first
    [ single_fetch H
    | apply bind_inv in H;
      destruct H as [(?finalItems & ?tr1 & ?Hfinal & H) | (?e & ?Hfinal & _)];
      [ single_fetch H
      | exfalso;
        match goal with
        | Hf : final_items _ _ _ _ _ = _ |- _ =>
            apply final_items_trace in Hf;
            destruct Hf as [Hf | (?rq & ?o & Hf & ?Hget)];
            [ exact (no_exchange _ _ (eq_sym Hf))
            | apply last_exchange in Hf; destruct Hf as [_ Hf];
              injection Hf as -> _;
              match goal with
              | Hg : method _ = "GET" |- _ => rewrite Hg in Hm; discriminate Hm
              end ]
        end ] ].

(** C3, as stated, fails for the preliminary GET of an update: its body
    matches none of the declared shapes, and its data.items is read and
    sent on in the PATCH. *)
Lemma unvalidated_prefetch_is_read :
  (forall t shape m not_json,
      In (t, shape, m, not_json) (declared sample_diagnostic) ->
      parse shape (Some malformed_payload) = None)
  /\ requests (snd (run (execute (update_tool sample_diagnostic)
                           (world_with (Some upstream_malformed))
                           [ ("networkListId", JNum 48334);
                             ("newItems", JArr [ JStr "x" ]) ])))
     = [ get_request "secret" 48334;
         patch_request "secret" 48334 (JArr [ JNum 7; JStr "x" ]) ].
Proof.
  split.
  - intros t shape m not_json Hin.
    unfold declared in Hin. cbn [In] in Hin.
    destruct Hin as [E | [E | [E | [E | [E | []]]]]];
      injection E as <- <- <- <-; vm_compute; reflexivity.
  - vm_compute. reflexivity.
Qed.

(** C3, amended.  In each tool, the JSON of a 2xx response to the request
    the tool validates bears on the reply only through the result of
    validating it against the declared shape: two runs with the same
    arguments and the same clock reading, whose validated responses parse
    to the same result, give the same reply, whatever else the two bodies
    hold. *)
Theorem validated_payload_determines_reply
  (error_message : ZodType -> JSON -> string)
  (t : McpTool) (shape : ZodType) (validated_method : string)
  (not_json : Response -> JSON)
  (w1 w2 : World) (args : Args)
  (result1 result2 : Completion ToolResponse)
  (tr1 tr2 : list Exchange) (req1 req2 : Request) (res1 res2 : Response) :
  In (t, shape, validated_method, not_json) (declared error_message) ->
  now w1 = now w2 ->
  run (execute t w1 args) = (result1, (tr1 ++ [(req1, Resolved res1)])%list) ->
  method req1 = validated_method ->
  ok res1 = true ->
  run (execute t w2 args) = (result2, (tr2 ++ [(req2, Resolved res2)])%list) ->
  method req2 = validated_method ->
  ok res2 = true ->
  safeParse error_message shape (json_or res1 (not_json res1))
  = safeParse error_message shape (json_or res2 (not_json res2)) ->
  result1 = result2.
Proof.
  intros Hin Hnow Hrun1 Hm1 Hok1 Hrun2 Hm2 Hok2 Hparse.
  unfold declared in Hin. cbn [In] in Hin.
  destruct Hin as [E | [E | [E | [E | [E | []]]]]];
    injection E as <- <- <- <-;
    cbv beta in Hparse;
    validated_exchange Hrun1 Hm1;
    validated_exchange Hrun2 Hm2;
    rewrite Hok1, Hok2; cbn [negb];
    rewrite ?Hnow, Hparse;
    apply pure_fst; purity.
Qed.

Lemma validated_payload_determines_reply_witness :
  fst (run (execute (get_tool sample_diagnostic)
              (world_with (Some (upstream_holding ["10.0.0.0/8"])))
              [ ("networkListId", JNum 48334) ]))
  = fst (run (execute (get_tool sample_diagnostic)
                (world_with (Some upstream_with_extras))
                [ ("networkListId", JNum 48334) ])).
Proof.
  apply (validated_payload_determines_reply sample_diagnostic
           (get_tool sample_diagnostic) GetNetworkList.NetworkListSchema "GET"
           (fun _ => JObj [ ("message", JStr "Invalid JSON response from Azion API") ])
           (world_with (Some (upstream_holding ["10.0.0.0/8"])))
           (world_with (Some upstream_with_extras))
           [ ("networkListId", JNum 48334) ]
           _ _ [] [] (get_request "secret" 48334) (get_request "secret" 48334)
           {| status := 200; statusText := "OK";
              json_body := Some (JObj [ ("data", sample_entity ["10.0.0.0/8"]) ]) |}
           {| status := 200; statusText := "OK";
              json_body :=
                Some (JObj [ ("data",
                              match sample_entity ["10.0.0.0/8"] with
                              | JObj fs => JObj (("note", JStr "internal") :: fs)
                              | other => other
                              end);
                             ("debug", JBool true) ]) |}).
  - unfold declared. do 3 right. left. reflexivity.
  - reflexivity.
  - vm_compute. reflexivity.
  - reflexivity.
  - reflexivity.
  - vm_compute. reflexivity.
  - reflexivity.
  - reflexivity.
  - vm_compute. reflexivity.
Defined.

(** ** Arguments that conform to the input schema *)




(** ** Every path of a tool ends in one text *)




















(** The unvalidated reads can throw as well: the error body [null] makes
    [json.message] a TypeError in the four REST tools, where the event tool
    guards the read with [json && ...]. *)
Example null_error_body_throws :
  fst (run (execute (get_tool sample_diagnostic)
              (world_with (Some (fun _ _ => respond 502 "Bad Gateway" (Some JNull))))
              [ ("networkListId", JNum 48334) ]))
  = Thrown (TypeError "Cannot read properties of null")
  /\ fst (run (execute (events_tool sample_diagnostic)
                 (world_with (Some (fun _ _ => respond 502 "Bad Gateway" (Some JNull))))
                 []))
     = Returned (text_reply "Azion GraphQL request failed: HTTP 502 Bad Gateway").
Proof. split; vm_compute; reflexivity. Qed.
